(** * s4-clarity: element factory capabilities and the Artifact entity

    A shallow embedding of [s4/clarity/artifact.py] and of the parts of
    [s4/clarity/_internal] that the artifact and the factory tests rely on.

    - Python objects are records, [None] is [option]'s [None], a [dict] of
      attributes is a [gmap], a [set] is a [gset], and an ElementTree element
      is a finite tree.
    - A method is a state transformer over its receiver: it yields an outcome
      (a value or a raised exception) and the receiver as the call leaves it.
    - The properties and methods of [Artifact] that are stated about below
      follow [artifact.py] line by line.  [WrappedXml], the descriptors of
      [props.py], the link resolution of the factories and [ElementFactory]
      itself are used by the sources at hand but defined elsewhere; each of
      them is marked as modelled from the spec where it is defined. *)

From Stdlib Require Import ZArith Ascii.
From stdpp Require Import base option list strings gmap.

(** ** Outcomes and methods on a mutable receiver *)

Inductive outcome (A : Type) : Type :=
  | Returns (a : A)
  | Raises (exn : string).
Arguments Returns {A} a.
Arguments Raises {A} exn.

(** A method whose receiver has state [S]: the outcome and the receiver as the
    call leaves it.  An exception does not roll the receiver back. *)
Definition method (S A : Type) : Type := S → outcome A * S.

Definition ret {S A} (a : A) : method S A := λ s, (Returns a, s).
Definition raise {S A} (exn : string) : method S A := λ s, (Raises exn, s).
Definition bind {S A B} (m : method S A) (k : A → method S B) : method S B :=
  λ s, match m s with
       | (Returns a, s') => k a s'
       | (Raises exn, s') => (Raises exn, s')
       end.
Definition reads {S A} (f : S → A) : method S A := λ s, (Returns (f s), s).
Definition modify {S} (f : S → S) : method S unit := λ s, (Returns tt, f s).

Notation "'do' x <- m ; k" := (bind m (λ x, k))
  (at level 10, x name, m at level 100, k at level 200, only parsing).

Definition result_of {S A} (r : outcome A * S) : outcome A := r.1.
Definition state_of {S A} (r : outcome A * S) : S := r.2.

(** ** Strings as Python uses them here *)

Definition ascii_lower (c : ascii) : ascii :=
  let n := nat_of_ascii c in
  if ((65 <=? n) && (n <=? 90))%nat then ascii_of_nat (n + 32) else c.

(** [str.lower] on the ASCII range, which is where class names live. *)
Fixpoint lower (s : string) : string :=
  match s with
  | EmptyString => EmptyString
  | String c s' => String (ascii_lower c) (lower s')
  end.

(** [s.endswith(t)]: [t] is [s] or a suffix of the tail of [s]. *)
Fixpoint endswith (s t : string) : bool :=
  bool_decide (s = t) ||
  match s with
  | EmptyString => false
  | String _ s' => endswith s' t
  end.

(** [c in s] for a string [c] of one character. *)
Fixpoint contains_char (c : ascii) (s : string) : bool :=
  match s with
  | EmptyString => false
  | String c' s' => bool_decide (c' = c) || contains_char c s'
  end.

(** ** The element factory ([s4/clarity/_internal/factory.py]) *)

Module factory.

(** Modelled from the spec: [BatchFlags] is not among the sources; the spec
    calls the capability constant a set of bit flags with four individual
    flags, their combination "all" and the empty combination "none".  Each
    flag is one bit of an integer; which bit stands for which flag is a choice
    of this model. *)
Module BatchFlags.
Definition NONE : Z := 0.
Definition BATCH_CREATE : Z := 1.
Definition BATCH_GET : Z := 2.
Definition BATCH_UPDATE : Z := 4.
Definition QUERY : Z := 8.
Definition BATCH_ALL : Z :=
  Z.lor (Z.lor BATCH_CREATE BATCH_GET) (Z.lor BATCH_UPDATE QUERY).

(** A recognised combination has no bit outside the four flags. *)
Definition recognised (flags : Z) : bool :=
  (Z.land flags BATCH_ALL =? flags)%Z.
End BatchFlags.

(** The session as the factory sees it: the [root_uri] of the test's
    [LocalLIMS]. *)
Record LIMS := { root_uri : string }.

(** What a factory reads off an entity class: its [__name__] and the three
    optional class attributes, [None] when the class does not declare one
    (Python's [getattr] with a default). *)
Record EntityClass := {
  class_name : string;
  BATCH_FLAGS : option Z;
  NAME_ATTRIBUTE : option string;
  REQUEST_PATH : option string
}.

(** Modelled from the spec: what a factory holds for its entity type
    (section 3): the capability flags and the naming conventions. *)
Record ElementFactory := {
  lims : LIMS;
  element_class : EntityClass;
  batch_flags : Z;
  name_attribute : string;
  plural_name : string;
  uri : string
}.

(** A class is well declared when its flags, if any, combine the four
    capability flags and nothing else; these are the classes that have a
    factory. *)
Definition well_declared (cls : EntityClass) : Prop :=
  BatchFlags.recognised (default BatchFlags.NONE (BATCH_FLAGS cls)) = true.

(** Modelled from the spec: naive pluralisation appends the letter s. *)
Definition pluralize (name : string) : string := name +:+ "s".

(** Modelled from the spec: the constructor of [ElementFactory] (section 4.4;
    [factory.py] is not among the sources).  Flags default to "none", the name
    attribute to ["name"], the request path to the lower-cased plural of the
    class name; a declared request path is used as it is; a flag value that is
    no combination of the four flags is refused at construction.  The spec
    fixes only how the uri ends; the session root and a slash in front of the
    path follow the test's [LocalLIMS]. *)
Definition new_ElementFactory (l : LIMS) (cls : EntityClass)
  : outcome ElementFactory :=
  let flags := default BatchFlags.NONE (BATCH_FLAGS cls) in
  let plural := pluralize (class_name cls) in
  let request_path := default (lower plural) (REQUEST_PATH cls) in
  if BatchFlags.recognised flags then
    Returns {| lims := l;
               element_class := cls;
               batch_flags := flags;
               name_attribute := default "name" (NAME_ATTRIBUTE cls);
               plural_name := plural;
               uri := root_uri l +:+ "/" +:+ request_path |}
  else Raises "unrecognised batch flags".

(** Modelled from the spec: the four capability predicates test one bit each
    of the stored flags. *)
Definition has_flag (f : ElementFactory) (flag : Z) : bool :=
  negb (Z.land (batch_flags f) flag =? 0)%Z.
Definition can_batch_create (f : ElementFactory) : bool :=
  has_flag f BatchFlags.BATCH_CREATE.
Definition can_batch_get (f : ElementFactory) : bool :=
  has_flag f BatchFlags.BATCH_GET.
Definition can_batch_update (f : ElementFactory) : bool :=
  has_flag f BatchFlags.BATCH_UPDATE.
Definition can_query (f : ElementFactory) : bool :=
  has_flag f BatchFlags.QUERY.

(** The four answers in the order create, get, update, query. *)
Definition capabilities (f : ElementFactory) : bool * bool * bool * bool :=
  (can_batch_create f, can_batch_get f, can_batch_update f, can_query f).

End factory.

(** ** ElementTree elements *)

Module etree.

(** An element: tag, attribute dictionary, text ([None] when the element has
    none) and children in document order. *)
#[warnings="-register-all"]
Inductive Element : Type :=
  mkElement {
    tag : string;
    attrib : gmap string string;
    text : option string;
    children : list Element
  }.

(** [ETree.Element(tag)] *)
Definition new_element (t : string) : Element :=
  {| tag := t; attrib := ∅; text := None; children := [] |}.

Definition set_text (v : option string) (e : Element) : Element :=
  {| tag := tag e; attrib := attrib e; text := v; children := children e |}.

(** [e.set(key, value)] *)
Definition set_attrib (k v : string) (e : Element) : Element :=
  {| tag := tag e; attrib := <[k := v]> (attrib e); text := text e;
     children := children e |}.

Definition set_children (cs : list Element) (e : Element) : Element :=
  {| tag := tag e; attrib := attrib e; text := text e; children := cs |}.

(** A path is the list of tags below the element it is applied to:
    ["./location/value"] is [["location"; "value"]] and ["."] is [[]].
    Splitting the path string is ElementTree's work and is not modelled. *)
Definition path : Type := list string.

(** [e.findall(path)]: every match, in document order. *)
Fixpoint findall (p : path) (e : Element) : list Element :=
  match p with
  | [] => [e]
  | t :: p' =>
      flat_map (findall p') (filter (λ c, tag c = t) (children e))
  end.

(** [e.find(path)]: the first match or [None]. *)
Definition find (p : path) (e : Element) : option Element :=
  head (findall p e).

(** One step of auto-vivification among the children of a node: the first
    child with tag [t] is replaced by [g] of it; when there is none, [g] of a
    new element with that tag is appended. *)
Fixpoint vivify (t : string) (g : Element → Element) (cs : list Element)
  : list Element :=
  match cs with
  | [] => [g (new_element t)]
  | c :: cs' => if decide (tag c = t) then g c :: cs' else c :: vivify t g cs'
  end.

(** Modelled from the spec: walking [p] from [e], creating every node of the
    path that is missing, and changing the leaf by [f].  Python hands the leaf
    out as a reference and the caller mutates it; here the mutation is the
    argument [f]. *)
Fixpoint with_subelement (p : path) (f : Element → Element) (e : Element)
  : Element :=
  match p with
  | [] => f e
  | t :: p' => set_children (vivify t (with_subelement p' f) (children e)) e
  end.

End etree.

(** ** The wrapped document ([WrappedXml]) *)

Module wrappedxml.
Import etree.

(** Modelled from the spec (sections 3 and 4.1): one parsed tree and a dirty
    flag that every writing helper sets. *)
Record WrappedXml := { xml_root : Element; dirty : bool }.

(** A view on a node, as an element list hands out for each child. *)
Definition wrap (e : Element) : WrappedXml := {| xml_root := e; dirty := false |}.

(** Modelled from the spec: read-only traversal of the tree, [None] or the
    empty list when nothing matches. *)
Definition xml_find (p : path) : method WrappedXml (option Element) :=
  reads (λ self, find p (xml_root self)).

Definition xml_findall (p : path) : method WrappedXml (list Element) :=
  reads (λ self, findall p (xml_root self)).

(** Modelled from the spec: the text of the subnode, [None] when the subnode
    is absent. *)
Definition get_node_text (p : path) : method WrappedXml (option string) :=
  do node <- xml_find p;
  ret (node ≫= text).

(** Modelled from the spec: every change of the tree goes through a helper
    that marks the document dirty. *)
Definition mutate (f : Element → Element) : method WrappedXml unit :=
  modify (λ self, {| xml_root := f (xml_root self); dirty := true |}).

(** Modelled from the spec: creates the missing nodes of the path, sets the
    text of the leaf, marks the document dirty. *)
Definition set_subnode_text (p : path) (v : option string)
  : method WrappedXml unit :=
  mutate (with_subelement p (set_text v)).

(** Modelled from the spec: the auto-vivification entry point; the caller's
    change of the leaf it receives is [f]. *)
Definition make_subelement_with_parents (p : path) (f : Element → Element)
  : method WrappedXml unit :=
  mutate (with_subelement p f).

End wrappedxml.

(** ** Entities reached through links *)

Module links.
Import etree.

(** Modelled from the spec: a class for which the session holds a factory;
    the factory builds an empty shell around a link. *)
Class LinkTarget (T : Type) := from_link : option string → T.

(** Modelled from the spec: a link node that is absent resolves to [None];
    one that is present resolves to the shell of the entity its [uri]
    attribute names.  Fetching the shell's document is the transport's work
    and is not modelled. *)
Definition from_link_node {T} `{LinkTarget T} (node : option Element)
  : option T :=
  match node with
  | None => None
  | Some n => Some (from_link (attrib n !! "uri"))
  end.

(** Modelled from the spec: a workflow stage ([configuration/stage.py]) and a
    control type, each known by the uri of its link; the session hands out one
    entity for one uri, so two resolutions of one uri are the same stage. *)
Record Stage := { stage_uri : option string }.

Record ControlType := { control_type_uri : option string }.

Global Instance Stage_eq_dec : EqDecision Stage.
Proof. solve_decision. Defined.

Global Instance Stage_countable : Countable Stage.
Proof.
  refine (inj_countable' stage_uri Build_Stage _).
  intros []. reflexivity.
Defined.

(** Modelled from the spec: a container ([container.py]), known by the uri of
    its link. *)
Record Container := { container_uri : option string }.

Global Instance Stage_link : LinkTarget Stage := Build_Stage.
Global Instance Container_link : LinkTarget Container := Build_Container.
Global Instance ControlType_link : LinkTarget ControlType := Build_ControlType.

End links.

(** ** Field descriptors ([s4/clarity/_internal/props.py]) *)

Module props.
Import etree wrappedxml links.

(** Modelled from the spec (section 4.2): a bindable field with a shared
    contract.  Reading resolves the field against the owner's document;
    writing goes to the document's write primitive unless the field is
    read-only, in which case the write is refused before anything is done. *)
Record descriptor (R W : Type) := {
  readonly : bool;
  fget : WrappedXml → R;
  fset : W → method WrappedXml unit
}.
Arguments readonly {R W} d.
Arguments fget {R W} d self.
Arguments fset {R W} d value.

Definition descriptor_get {R W} (d : descriptor R W) : method WrappedXml R :=
  reads (fget d).

Definition descriptor_set {R W} (d : descriptor R W) (value : W)
  : method WrappedXml unit :=
  if readonly d then raise "can't set attribute" else fset d value.

(** Modelled from the spec: an XML attribute of the node at [p] ([[]] is the
    document root, the default); writing creates the node when it is
    missing. *)
Definition attribute_property (attribname : string) (p : path) (ro : bool)
  : descriptor (option string) string :=
  {| readonly := ro;
     fget := λ self, find p (xml_root self) ≫= λ n, attrib n !! attribname;
     fset := λ v, mutate (with_subelement p (set_attrib attribname v)) |}.

(** Modelled from the spec: the text of the subnode at [p]. *)
Definition subnode_property (p : path) (ro : bool)
  : descriptor (option string) string :=
  {| readonly := ro;
     fget := λ self, find p (xml_root self) ≫= text;
     fset := λ v, set_subnode_text p (Some v) |}.

(** Modelled from the spec: a reference subnode at [p], read as the entity it
    links to, through the factory of the target type [T], and written as the
    uri of the entity to link. *)
Definition subnode_link (T : Type) `{LinkTarget T} (p : path) (ro : bool)
  : descriptor (option T) string :=
  {| readonly := ro;
     fget := λ self, from_link_node (find p (xml_root self));
     fset := λ v, mutate (with_subelement p (set_attrib "uri" v)) |}.

(** Modelled from the spec: the children with tag [child] of the container at
    [p], each as a view of its node, in document order; read-only at the level
    of the list.  The class of the views, the first argument in
    [artifact.py], only says which descriptors apply to them. *)
Definition subnode_element_list (p : path) (child : string) (ro : bool)
  : descriptor (list WrappedXml) (list WrappedXml) :=
  {| readonly := ro;
     fget := λ self,
       match find p (xml_root self) with
       | None => []
       | Some c => wrap <$> filter (λ n, tag n = child) (children c)
       end;
     fset := λ _, raise "can't set attribute" |}.

End props.

(** ** The artifact ([s4/clarity/artifact.py]) *)

Module artifact.
Import etree wrappedxml links props.

Definition QC_PASSED : string := "PASSED".
Definition QC_FAILED : string := "FAILED".
Definition QC_UNKNOWN : string := "UNKNOWN".

Definition STAGE_STATUS_QUEUED : string := "QUEUED".
Definition STAGE_STATUS_REMOVED : string := "REMOVED".
Definition STAGE_STATUS_IN_PROGRESS : string := "IN_PROGRESS".

Module WorkflowStageHistory.
Definition uri := attribute_property "uri" [] false.
Definition status := attribute_property "status" [] false.
Definition name := attribute_property "name" [] false.
Definition stage := subnode_link Stage [] false.
End WorkflowStageHistory.

Module ReagentLabel.
Definition name := attribute_property "name" [] true.
End ReagentLabel.

(** Modelled from the spec: a file ([s4/clarity/file.py]), either a shell
    around a link, whose document is not fetched yet, or a new record with a
    document of its own; [file_name] is the attribute [name] that the artifact
    assigns. *)
Record File := {
  file_uri : option string;
  file_name : option string;
  file_xml : option WrappedXml
}.

Definition FILE_TAG : string := "{http://genologics.com/ri/file}file".

Global Instance File_link : LinkTarget File :=
  λ u, {| file_uri := u; file_name := None; file_xml := None |}.

(** The artifact object: what [__init__] passes on to [ClarityElement]
    besides the session, with the document loaded. *)
Record Artifact := {
  uri : option string;
  name : option string;
  limsid : option string;
  xml : WrappedXml
}.

(** Modelled from the spec: [File.new_empty], a new record with no link and an
    empty document.  What the new file keeps of the element it is created for
    is not visible in the sources and is left out. *)
Definition File_new_empty (attachment_point : Artifact) : File :=
  {| file_uri := None; file_name := None;
     file_xml := Some (wrap (new_element FILE_TAG)) |}.

(** [f.name = value] *)
Definition File_set_name (value : option string) (f : File) : File :=
  {| file_uri := file_uri f; file_name := value; file_xml := file_xml f |}.

(** A method of [WrappedXml] called on the artifact, which inherits it. *)
Definition inherited {A} (m : method WrappedXml A) : method Artifact A :=
  λ self,
    let '(r, w) := m (xml self) in
    (r, {| uri := uri self; name := name self; limsid := limsid self;
           xml := w |}).

Definition UNIVERSAL_TAG : string :=
  "{http://genologics.com/ri/artifact}artifact".

Definition type := subnode_property ["type"] false.
Definition output_type := subnode_property ["output-type"] false.
Definition location_value := subnode_property ["location"; "value"] false.
Definition workflow_stages :=
  subnode_element_list ["workflow-stages"] "workflow-stage" true.
Definition reagent_labels := subnode_element_list [] "reagent-label" true.

Definition file : method Artifact (option File) :=
  do node <- inherited (xml_find [FILE_TAG]);
  let f : option File := from_link_node node in
  match f with
  | None =>
      do self <- reads id;
      do self_name <- reads name;
      ret (Some (File_set_name self_name (File_new_empty self)))
  | Some _ => ret f
  end.

Definition is_control : method Artifact bool :=
  do node <- inherited (xml_find ["control-type"]);
  ret (bool_decide (node ≠ None)).

Definition control_type : method Artifact (option ControlType) :=
  do node <- inherited (xml_find ["control-type"]);
  ret (from_link_node node).

(** One turn of the loop of [queued_stages]. *)
Definition queued_stages_step (queued_stages : gset (option Stage))
    (stage_history : WrappedXml) : gset (option Stage) :=
  let status := fget WorkflowStageHistory.status stage_history in
  let stage := fget WorkflowStageHistory.stage stage_history in
  if bool_decide (status = Some STAGE_STATUS_QUEUED) then
    queued_stages ∪ {[ stage ]}
  else if bool_decide (status = Some STAGE_STATUS_REMOVED)
          || bool_decide (status = Some STAGE_STATUS_IN_PROGRESS) then
    queued_stages ∖ {[ stage ]}
  else queued_stages.

Definition queued_stages : method Artifact (gset (option Stage)) :=
  do histories <- inherited (descriptor_get workflow_stages);
  ret (foldl queued_stages_step ∅ histories).

(** The reading of the spec: among the history entries of a stage whose status
    is QUEUED, REMOVED or IN_PROGRESS, the most recent one is the last in
    document order.  This definition follows the spec's words and is compared
    with [queued_stages] below. *)
Definition relevant_status (status : option string) : bool :=
  bool_decide (status = Some STAGE_STATUS_QUEUED)
  || bool_decide (status = Some STAGE_STATUS_REMOVED)
  || bool_decide (status = Some STAGE_STATUS_IN_PROGRESS).

Definition most_recent_relevant (stage : option Stage)
    (histories : list WrappedXml) : option WrappedXml :=
  last
    (filter
       (λ h, fget WorkflowStageHistory.stage h = stage
             ∧ relevant_status (fget WorkflowStageHistory.status h) = true)
       histories).

Definition queued_by_most_recent (stage : option Stage)
    (histories : list WrappedXml) : Prop :=
  ∃ h, most_recent_relevant stage histories = Some h
       ∧ fget WorkflowStageHistory.status h = Some STAGE_STATUS_QUEUED.

Definition qc : method Artifact (option bool) :=
  do qctext <- inherited (get_node_text ["qc-flag"]);
  if bool_decide (qctext = Some QC_PASSED) then ret (Some true)
  else if bool_decide (qctext = Some QC_FAILED) then ret (Some false)
  else ret None.

Definition set_qc_flag (value : option bool) : method Artifact unit :=
  let qc :=
    match value with
    | None => QC_UNKNOWN
    | Some true => QC_PASSED
    | Some false => QC_FAILED
    end in
  inherited (set_subnode_text ["qc-flag"] (Some qc)).

(** The table of the docstring of [qc], read from the boolean to the text. *)
Definition qc_marker (value : option bool) : string :=
  match value with
  | None => QC_UNKNOWN
  | Some true => QC_PASSED
  | Some false => QC_FAILED
  end.

(** [artifact.qc = value] *)
Definition qc_setter (value : option bool) : method Artifact unit :=
  set_qc_flag value.

Definition qc_passed : method Artifact bool :=
  do qctext <- inherited (get_node_text ["qc-flag"]);
  ret (bool_decide (qctext = Some QC_PASSED)).

Definition qc_failed : method Artifact bool :=
  do qctext <- inherited (get_node_text ["qc-flag"]);
  ret (bool_decide (qctext = Some QC_FAILED)).

Definition reagent_label_names : method Artifact (list (option string)) :=
  do labels <- inherited (descriptor_get reagent_labels);
  ret (fget ReagentLabel.name <$> labels).

Definition reagent_label_name : method Artifact (option string) :=
  do label_names <- reagent_label_names;
  let num_labels := length label_names in
  if bool_decide (1 < num_labels)%nat then
    raise "Artifact has multiple reagent labels."
  else if bool_decide (num_labels = 0)%nat then ret None
  else
    match label_names !! 0%nat with
    | Some label_name => ret label_name
    | None => raise "list index out of range"
    end.

Definition reagent_label_name_setter (reagent_label_name : string)
  : method Artifact unit :=
  inherited
    (make_subelement_with_parents ["reagent-label"]
       (set_attrib "name" reagent_label_name)).

Definition container : method Artifact (option Container) :=
  do node <- inherited (xml_find ["location"; "container"]);
  ret (from_link_node node).

(** The two methods of [File] that [open_file] calls.  What they do to the
    content of the file is the business of [file.py]; here only the call is
    recorded. *)
Inductive file_call := truncate | seek_to_end.

(** A file as [open_file] hands it out: the file, the attributes that
    [open_file] assigned to it ([None] for [writeable] when it assigned none)
    and the method it called on it, if any. *)
Record OpenedFile := {
  file_opened : File;
  f_only_write_locally : bool;
  f_mode : string;
  f_writeable : option bool;
  f_called : option file_call
}.

Definition open_file (mode : string) (only_write_locally : bool)
    (name : option string) : method Artifact OpenedFile :=
  do f <- file;
  match f with
  | None => raise "'NoneType' object has no attribute 'name'"
  | Some f =>
      let f :=
        match name with
        | Some _ => File_set_name name f
        | None => f
        end in
      let opened (w : option bool) (c : option file_call) :=
        {| file_opened := f; f_only_write_locally := only_write_locally;
           f_mode := mode; f_writeable := w; f_called := c |} in
      if contains_char "w" mode then ret (opened None (Some truncate))
      else if contains_char "r" mode then ret (opened (Some false) None)
      else if contains_char "a" mode then ret (opened None (Some seek_to_end))
      else ret (opened None None)
  end.

End artifact.

(** ** The fixtures of [test_element_factory.py] *)

Module test_element_factory.
Import factory.

Definition LocalLIMS : LIMS := {| root_uri := "http://localhost/api/v2" |}.

(** [class TestElement(object): pass], optionally with one class attribute. *)
Definition TestElement : EntityClass :=
  {| class_name := "TestElement"; BATCH_FLAGS := None;
     NAME_ATTRIBUTE := None; REQUEST_PATH := None |}.

Definition TestElement_with_flags (flags : Z) : EntityClass :=
  {| class_name := "TestElement"; BATCH_FLAGS := Some flags;
     NAME_ATTRIBUTE := None; REQUEST_PATH := None |}.

Definition TestElement_with_name : EntityClass :=
  {| class_name := "TestElement"; BATCH_FLAGS := None;
     NAME_ATTRIBUTE := Some "test_name"; REQUEST_PATH := None |}.

Definition TestElement_with_path : EntityClass :=
  {| class_name := "TestElement"; BATCH_FLAGS := None;
     NAME_ATTRIBUTE := None; REQUEST_PATH := Some "test/path" |}.

End test_element_factory.

(** ** Sample artifacts *)

Module samples.
Import etree wrappedxml links artifact.

Definition loaded (root : Element) : Artifact :=
  {| uri := Some "http://localhost/api/v2/artifacts/A1";
     name := Some "plate-1"; limsid := Some "A1"; xml := wrap root |}.

Definition link_node (t uri : string) (attrs : list (string * string))
  : Element :=
  {| tag := t; attrib := <["uri" := uri]> (list_to_map attrs);
     text := None; children := [] |}.

(** An artifact whose document is the bare root. *)
Definition bare : Artifact := loaded (new_element UNIVERSAL_TAG).

Definition stage_A : string := "http://localhost/api/v2/stages/A".
Definition stage_B : string := "http://localhost/api/v2/stages/B".

Definition history (stage status : string) : Element :=
  link_node "workflow-stage" stage [("status", status)].

(** The history A queued, B queued, A in progress. *)
Definition twice_queued : Artifact :=
  loaded
    (set_children
       [set_children
          [history stage_A STAGE_STATUS_QUEUED;
           history stage_B STAGE_STATUS_QUEUED;
           history stage_A STAGE_STATUS_IN_PROGRESS]
          (new_element "workflow-stages")]
       (new_element UNIVERSAL_TAG)).

Definition reagent_label (label : string) : Element :=
  {| tag := "reagent-label"; attrib := {[ "name" := label ]};
     text := None; children := [] |}.

Definition labelled (labels : list string) : Artifact :=
  loaded (set_children (reagent_label <$> labels)
            (new_element UNIVERSAL_TAG)).

Definition control : Artifact :=
  loaded
    (set_children
       [link_node "control-type"
          "http://localhost/api/v2/controltypes/1" []]
       (new_element UNIVERSAL_TAG)).

(** The history A queued, A complete, B queued, A in progress. *)
Definition with_complete : Artifact :=
  loaded
    (set_children
       [set_children
          [history stage_A STAGE_STATUS_QUEUED;
           history stage_A "COMPLETE";
           history stage_B STAGE_STATUS_QUEUED;
           history stage_A STAGE_STATUS_IN_PROGRESS]
          (new_element "workflow-stages")]
       (new_element UNIVERSAL_TAG)).

Definition with_file : Artifact :=
  loaded
    (set_children
       [link_node FILE_TAG "http://localhost/api/v2/files/F1" []]
       (new_element UNIVERSAL_TAG)).

End samples.

(** * Properties *)

(** ** Strings *)

Lemma endswith_refl (s : string) : endswith s s = true.
Proof.
  destruct s; cbn [endswith]; apply orb_true_iff; left;
    by apply bool_decide_eq_true_2.
Qed.

Lemma endswith_app (p t : string) : endswith (p +:+ t) t = true.
Proof.
  induction p as [|c p IH].
  - apply endswith_refl.
  - change (String c p +:+ t) with (String c (p +:+ t)).
    cbn [endswith]. rewrite IH. apply orb_true_r.
Qed.

Lemma endswith_app_l (p s t : string) :
  endswith s t = true → endswith (p +:+ s) t = true.
Proof.
  intros Hs. induction p as [|c p IH]; [done|].
  change (String c p +:+ s) with (String c (p +:+ s)).
  cbn [endswith]. rewrite IH. apply orb_true_r.
Qed.

Lemma lower_app (a b : string) : lower (a +:+ b) = lower a +:+ lower b.
Proof.
  induction a as [|c a IH]; [done|].
  change (String c a +:+ b) with (String c (a +:+ b)).
  simpl. rewrite IH. done.
Qed.

(** ** The element factory *)

Section factory_properties.
Import factory test_element_factory.

Lemma factory_of_well_declared (l : LIMS) (cls : EntityClass) :
  well_declared cls →
  ∃ f, new_ElementFactory l cls = Returns f
       ∧ batch_flags f = default BatchFlags.NONE (BATCH_FLAGS cls)
       ∧ name_attribute f = default "name" (NAME_ATTRIBUTE cls)
       ∧ uri f = root_uri l +:+ "/"
                 +:+ default (lower (pluralize (class_name cls)))
                             (REQUEST_PATH cls).
Proof.
  unfold well_declared, new_ElementFactory. intros ->. eauto.
Qed.

Lemma undeclared_flags_well_declared (cls : EntityClass) :
  BATCH_FLAGS cls = None → well_declared cls.
Proof. unfold well_declared. intros ->. reflexivity. Qed.

(** A flag value with a bit outside the four flags has no factory. *)
Example malformed_flags_refused :
  new_ElementFactory LocalLIMS (TestElement_with_flags 16)
  = Raises "unrecognised batch flags".
Proof. reflexivity. Qed.

Example test_request_path_default :
  uri <$> (match new_ElementFactory LocalLIMS TestElement with
           | Returns f => Some f
           | Raises _ => None
           end)
  = Some "http://localhost/api/v2/testelements".
Proof. reflexivity. Qed.

(** C1.  A class that declares no [BATCH_FLAGS] has a factory, and all four
    capability predicates of that factory answer [False]. *)
Theorem undeclared_flags_fail_closed (l : LIMS) (cls : EntityClass) :
  BATCH_FLAGS cls = None →
  ∃ f, new_ElementFactory l cls = Returns f
       ∧ can_batch_create f = false
       ∧ can_batch_get f = false
       ∧ can_batch_update f = false
       ∧ can_query f = false.
Proof.
  intros Hnone.
  destruct (factory_of_well_declared l cls) as (f & Hf & Hflags & _).
  { by apply undeclared_flags_well_declared. }
  exists f. split; [done|].
  unfold can_batch_create, can_batch_get, can_batch_update, can_query, has_flag.
  rewrite Hflags, Hnone. repeat split; reflexivity.
Qed.

Lemma undeclared_flags_fail_closed_witness :
  ∃ f, new_ElementFactory LocalLIMS TestElement = Returns f
       ∧ can_batch_create f = false
       ∧ can_batch_get f = false
       ∧ can_batch_update f = false
       ∧ can_query f = false.
Proof. apply (undeclared_flags_fail_closed LocalLIMS TestElement). reflexivity. Defined.

(** What one declared value of [BATCH_FLAGS] gives: a factory and its four
    answers. *)
Lemma declared_flags (l : LIMS) (cls : EntityClass) (flags : Z) :
  BATCH_FLAGS cls = Some flags →
  BatchFlags.recognised flags = true →
  ∃ f, new_ElementFactory l cls = Returns f
       ∧ capabilities f =
           (negb (Z.land flags BatchFlags.BATCH_CREATE =? 0)%Z,
            negb (Z.land flags BatchFlags.BATCH_GET =? 0)%Z,
            negb (Z.land flags BatchFlags.BATCH_UPDATE =? 0)%Z,
            negb (Z.land flags BatchFlags.QUERY =? 0)%Z).
Proof.
  intros Hdecl Hrec.
  destruct (factory_of_well_declared l cls) as (f & Hf & Hflags & _).
  { unfold well_declared. by rewrite Hdecl. }
  exists f. split; [done|].
  unfold capabilities, can_batch_create, can_batch_get, can_batch_update,
    can_query, has_flag.
  by rewrite Hflags, Hdecl.
Qed.

(** C2.  Declaring exactly one of the four flags gives a factory that answers
    [True] for that capability and [False] for the other three; declaring
    [BATCH_ALL] gives four times [True]; declaring [NONE] four times [False].
    The four answers are listed as create, get, update, query. *)
Theorem declared_flags_capabilities (l : LIMS) (cls : EntityClass) :
  (BATCH_FLAGS cls = Some BatchFlags.BATCH_CREATE →
   ∃ f, new_ElementFactory l cls = Returns f
        ∧ capabilities f = (true, false, false, false))
  ∧ (BATCH_FLAGS cls = Some BatchFlags.BATCH_GET →
     ∃ f, new_ElementFactory l cls = Returns f
          ∧ capabilities f = (false, true, false, false))
  ∧ (BATCH_FLAGS cls = Some BatchFlags.BATCH_UPDATE →
     ∃ f, new_ElementFactory l cls = Returns f
          ∧ capabilities f = (false, false, true, false))
  ∧ (BATCH_FLAGS cls = Some BatchFlags.QUERY →
     ∃ f, new_ElementFactory l cls = Returns f
          ∧ capabilities f = (false, false, false, true))
  ∧ (BATCH_FLAGS cls = Some BatchFlags.BATCH_ALL →
     ∃ f, new_ElementFactory l cls = Returns f
          ∧ capabilities f = (true, true, true, true))
  ∧ (BATCH_FLAGS cls = Some BatchFlags.NONE →
     ∃ f, new_ElementFactory l cls = Returns f
          ∧ capabilities f = (false, false, false, false)).
Proof.
  repeat split; intros Hdecl;
    apply (declared_flags l cls _ Hdecl); reflexivity.
Qed.

Lemma declared_flags_capabilities_witness :
  (∃ f, new_ElementFactory LocalLIMS
          (TestElement_with_flags BatchFlags.BATCH_GET) = Returns f
        ∧ capabilities f = (false, true, false, false))
  ∧ (∃ f, new_ElementFactory LocalLIMS
            (TestElement_with_flags BatchFlags.BATCH_ALL) = Returns f
          ∧ capabilities f = (true, true, true, true)).
Proof.
  split.
  - apply (declared_flags_capabilities LocalLIMS
             (TestElement_with_flags BatchFlags.BATCH_GET)).
    reflexivity.
  - apply (declared_flags_capabilities LocalLIMS
             (TestElement_with_flags BatchFlags.BATCH_ALL)).
    reflexivity.
Defined.

(** C3.  The uri of the factory of a class ends with the declared
    [REQUEST_PATH], unchanged, when the class declares one, and otherwise with
    the lower-cased class name followed by the letter s; for the test's
    [TestElement] that ending is [testelements]. *)
Theorem uri_ends_with_request_path (l : LIMS) (cls : EntityClass) :
  well_declared cls →
  ∃ f, new_ElementFactory l cls = Returns f
       ∧ (∀ request_path, REQUEST_PATH cls = Some request_path →
            endswith (uri f) request_path = true)
       ∧ (REQUEST_PATH cls = None →
            endswith (uri f) (lower (class_name cls) +:+ "s") = true)
       ∧ (cls = TestElement → endswith (uri f) "testelements" = true).
Proof.
  intros Hwd.
  destruct (factory_of_well_declared l cls Hwd) as (f & Hf & _ & _ & Huri).
  exists f. split; [done|]. rewrite Huri.
  assert (Hnone : REQUEST_PATH cls = None →
            endswith (root_uri l +:+ "/"
                      +:+ default (lower (pluralize (class_name cls)))
                                  (REQUEST_PATH cls))
                     (lower (class_name cls) +:+ "s") = true).
  { intros ->. cbn [default]. unfold pluralize. rewrite lower_app.
    change (lower "s") with "s".
    apply endswith_app_l, endswith_app. }
  split; [|split].
  - intros request_path ->. cbn [default].
    apply endswith_app_l, endswith_app.
  - exact Hnone.
  - intros ->. apply (Hnone eq_refl).
Qed.

Lemma uri_ends_with_request_path_witness :
  ∃ f, new_ElementFactory LocalLIMS TestElement_with_path = Returns f
       ∧ (∀ request_path,
            REQUEST_PATH TestElement_with_path = Some request_path →
            endswith (uri f) request_path = true)
       ∧ (REQUEST_PATH TestElement_with_path = None →
            endswith (uri f)
              (lower (class_name TestElement_with_path) +:+ "s") = true)
       ∧ (TestElement_with_path = TestElement →
            endswith (uri f) "testelements" = true).
Proof.
  apply (uri_ends_with_request_path LocalLIMS TestElement_with_path).
  reflexivity.
Defined.

(** C4.  The name attribute of the factory of a class is ["name"] when the
    class declares no [NAME_ATTRIBUTE], and the declared value otherwise. *)
Theorem name_attribute_default_or_declared (l : LIMS) (cls : EntityClass) :
  well_declared cls →
  ∃ f, new_ElementFactory l cls = Returns f
       ∧ (NAME_ATTRIBUTE cls = None → name_attribute f = "name")
       ∧ (∀ declared, NAME_ATTRIBUTE cls = Some declared →
            name_attribute f = declared).
Proof.
  intros Hwd.
  destruct (factory_of_well_declared l cls Hwd) as (f & Hf & _ & Hname & _).
  exists f. rewrite Hname. repeat split; [done| |].
  - by intros ->.
  - by intros declared ->.
Qed.

Lemma name_attribute_default_or_declared_witness :
  ∃ f, new_ElementFactory LocalLIMS TestElement_with_name = Returns f
       ∧ (NAME_ATTRIBUTE TestElement_with_name = None →
            name_attribute f = "name")
       ∧ (∀ declared, NAME_ATTRIBUTE TestElement_with_name = Some declared →
            name_attribute f = declared).
Proof.
  apply (name_attribute_default_or_declared LocalLIMS TestElement_with_name).
  reflexivity.
Defined.

End factory_properties.

(** ** Documents: reading after auto-vivification *)

Section document_properties.
Import etree wrappedxml.

Lemma tag_with_subelement (p : path) (f : Element → Element) (e : Element) :
  (∀ n, tag (f n) = tag n) → tag (with_subelement p f e) = tag e.
Proof. intros Hf. destruct p; [apply Hf | reflexivity]. Qed.

(** After one step of auto-vivification the first child with the tag is the
    changed one. *)
Lemma filter_vivify (t : string) (g : Element → Element) (cs : list Element) :
  (∀ n, tag (g n) = tag n) →
  ∃ c rest, filter (λ n, tag n = t) (vivify t g cs) = g c :: rest.
Proof.
  intros Hg. induction cs as [|c cs (c' & rest & IH)]; simpl.
  - exists (new_element t), []. rewrite filter_cons_True; [done|].
    by rewrite Hg.
  - destruct (decide (tag c = t)) as [Heq|Hne].
    + exists c, (filter (λ n, tag n = t) cs).
      rewrite filter_cons_True; [done|]. by rewrite Hg.
    + exists c', rest. by rewrite filter_cons_False.
Qed.

(** The leaf that [with_subelement] changed is the one [find] reaches. *)
Lemma find_with_subelement (p : path) (f : Element → Element) (e : Element) :
  (∀ n, tag (f n) = tag n) →
  ∃ n, find p (with_subelement p f e) = Some (f n).
Proof.
  intros Hf. revert e. induction p as [|t p IH]; intros e.
  - exists e. reflexivity.
  - destruct (filter_vivify t (with_subelement p f) (children e))
      as (c & rest & Hfilter).
    { intros n. by apply tag_with_subelement. }
    destruct (IH c) as (n & Hn). exists n.
    unfold find. cbn [with_subelement findall set_children children].
    rewrite Hfilter. cbn [flat_map].
    unfold find in Hn. destruct (findall p (with_subelement p f c)); [done|].
    exact Hn.
Qed.

Lemma get_node_text_set_subnode_text (p : path) (v : option string)
    (w : WrappedXml) :
  result_of (get_node_text p (state_of (set_subnode_text p v w))) = Returns v.
Proof.
  destruct (find_with_subelement p (set_text v) (xml_root w)) as (n & Hn);
    [done|].
  unfold get_node_text, xml_find, set_subnode_text, mutate, modify, bind,
    reads, ret, result_of, state_of. cbn.
  by rewrite Hn.
Qed.

(** Writing below a container that is missing creates the container. *)
Example set_subnode_text_creates_parents :
  xml_root
    (state_of (set_subnode_text ["location"; "value"] (Some "A:1")
                 (wrap (new_element "artifact"))))
  = set_children
      [set_children [set_text (Some "A:1") (new_element "value")]
         (new_element "location")]
      (new_element "artifact").
Proof. reflexivity. Qed.

End document_properties.

(** ** The artifact *)

Section artifact_properties.
Import etree wrappedxml links props artifact samples.

Lemma inherited_result {A} (m : method WrappedXml A) (a : Artifact) :
  result_of (inherited m a) = result_of (m (xml a)).
Proof. unfold inherited, result_of. by destruct (m (xml a)). Qed.

Lemma inherited_state {A} (m : method WrappedXml A) (a : Artifact) :
  xml (state_of (inherited m a)) = state_of (m (xml a)).
Proof. unfold inherited, state_of. by destruct (m (xml a)). Qed.

(** A reader called on the artifact leaves the artifact as it was. *)
Lemma inherited_reads {A} (f : WrappedXml → A) (a : Artifact) :
  inherited (reads f) a = (Returns (f (xml a)), a).
Proof. by destruct a. Qed.

Lemma inherited_xml_find (p : path) (a : Artifact) :
  inherited (xml_find p) a = (Returns (find p (xml_root (xml a))), a).
Proof. apply inherited_reads. Qed.

Lemma inherited_get_node_text (p : path) (a : Artifact) :
  inherited (get_node_text p) a
  = (Returns (find p (xml_root (xml a)) ≫= text), a).
Proof. by destruct a. Qed.

(** [qc] is a function of the text of the [qc-flag] subnode. *)
Lemma qc_of_text (a : Artifact) :
  qc a =
  (Returns
     (let qctext := find ["qc-flag"] (xml_root (xml a)) ≫= text in
      if bool_decide (qctext = Some QC_PASSED) then Some true
      else if bool_decide (qctext = Some QC_FAILED) then Some false
      else None), a).
Proof.
  unfold qc, bind. rewrite inherited_get_node_text. cbn zeta.
  repeat case_bool_decide; reflexivity.
Qed.

Lemma qc_text_after_set (value : option bool) (a : Artifact) :
  result_of (qc_setter value a) = Returns tt
  ∧ result_of (inherited (get_node_text ["qc-flag"])
                 (state_of (qc_setter value a)))
    = Returns (Some (qc_marker value)).
Proof.
  unfold qc_setter, set_qc_flag. split; [by rewrite inherited_result|].
  rewrite inherited_result, inherited_state.
  rewrite get_node_text_set_subnode_text. by destruct value as [[]|].
Qed.

Lemma qc_after_set (value : option bool) (a : Artifact) :
  let a' := state_of (qc_setter value a) in
  result_of (qc_setter value a) = Returns tt
  ∧ result_of (qc a') = Returns value
  ∧ result_of (inherited (get_node_text ["qc-flag"]) a')
    = Returns (Some (qc_marker value)).
Proof.
  destruct (qc_text_after_set value a) as [Hret Htext].
  cbn zeta. split; [done|]. split; [|done].
  remember (state_of (qc_setter value a)) as a' eqn:Ha'. clear Ha'.
  rewrite inherited_get_node_text in Htext. injection Htext as Htext.
  rewrite qc_of_text. cbn zeta. rewrite Htext.
  by destruct value as [[]|].
Qed.

(** C5.  After [qc] is set to [True] it reads as [True] and the text of the
    [qc-flag] subnode is [PASSED]; after it is set to [None] it reads as [None]
    and the text is [UNKNOWN]; after it is set to [False] it reads as [False]
    and the text is [FAILED]; an artifact without a [qc-flag] subnode reads as
    [None]. *)
Theorem qc_set_then_read (a : Artifact) :
  (let a' := state_of (qc_setter (Some true) a) in
   result_of (qc_setter (Some true) a) = Returns tt
   ∧ result_of (qc a') = Returns (Some true)
   ∧ result_of (inherited (get_node_text ["qc-flag"]) a')
     = Returns (Some "PASSED"))
  ∧ (let a' := state_of (qc_setter None a) in
     result_of (qc_setter None a) = Returns tt
     ∧ result_of (qc a') = Returns None
     ∧ result_of (inherited (get_node_text ["qc-flag"]) a')
       = Returns (Some "UNKNOWN"))
  ∧ (let a' := state_of (qc_setter (Some false) a) in
     result_of (qc_setter (Some false) a) = Returns tt
     ∧ result_of (qc a') = Returns (Some false)
     ∧ result_of (inherited (get_node_text ["qc-flag"]) a')
       = Returns (Some "FAILED"))
  ∧ (find ["qc-flag"] (xml_root (xml a)) = None →
     result_of (qc a) = Returns None).
Proof.
  split; [apply (qc_after_set (Some true))|].
  split; [apply (qc_after_set None)|].
  split; [apply (qc_after_set (Some false))|].
  intros Habsent. rewrite qc_of_text. cbn zeta. by rewrite Habsent.
Qed.

Lemma qc_set_then_read_witness :
  result_of (qc bare) = Returns None
  ∧ result_of (qc (state_of (qc_setter (Some true) bare)))
    = Returns (Some true).
Proof.
  split.
  - apply (qc_set_then_read bare). reflexivity.
  - apply (qc_set_then_read bare).
Defined.

(** The loop of [queued_stages] keeps exactly the stages that the most recent
    relevant entry queues. *)
Lemma foldl_queued_stages_step (histories : list WrappedXml)
    (stage : option Stage) :
  stage ∈ foldl queued_stages_step ∅ histories
  ↔ queued_by_most_recent stage histories.
Proof.
  unfold queued_by_most_recent, most_recent_relevant.
  induction histories as [|h histories IH] using rev_ind.
  - cbn. split; [by intros ?%not_elem_of_empty | by intros (h & ? & _)].
  - rewrite foldl_snoc, filter_app.
    unfold queued_stages_step at 1. cbn zeta.
    set (status := fget WorkflowStageHistory.status h) in *.
    set (hstage := fget WorkflowStageHistory.stage h) in *.
    destruct (decide (hstage = stage
                      ∧ relevant_status status = true)) as [[Hst Hrel]|Hno].
    + rewrite filter_cons_True by done. rewrite filter_nil, last_snoc.
      unfold relevant_status in Hrel.
      case_bool_decide as Hq.
      * split; [by exists h|].
        intros _. apply elem_of_union. right. by apply elem_of_singleton.
      * cbn [orb] in Hrel. rewrite Hrel. split.
        -- intros [_ Hout]%elem_of_difference.
           destruct Hout. by apply elem_of_singleton.
        -- by intros (h' & [= <-] & Hq').
    + rewrite filter_cons_False by done. rewrite filter_nil, app_nil_r.
      rewrite <- IH. clear IH.
      assert (Hne : relevant_status status = true → stage ≠ hstage).
      { intros Hrel ->. by apply Hno. }
      clear Hno. unfold relevant_status in Hne.
      destruct (bool_decide (status = Some STAGE_STATUS_QUEUED));
        [|destruct (bool_decide (status = Some STAGE_STATUS_REMOVED));
          [|destruct (bool_decide (status = Some STAGE_STATUS_IN_PROGRESS))]];
        cbn [orb] in *;
        rewrite ?elem_of_union, ?elem_of_difference, ?elem_of_singleton;
        try specialize (Hne eq_refl); tauto.
Qed.

Lemma queued_stages_reads (a : Artifact) :
  queued_stages a
  = (Returns (foldl queued_stages_step ∅ (fget workflow_stages (xml a))), a).
Proof.
  unfold queued_stages, bind, descriptor_get.
  by rewrite inherited_reads.
Qed.

(** C6.  [queued_stages] returns the set of the stages whose most recent
    history entry with status QUEUED, REMOVED or IN_PROGRESS has status
    QUEUED; for the history A queued, B queued, A in progress, it returns the
    set that holds stage B alone. *)
Theorem queued_stages_most_recent :
  (∀ a : Artifact,
     ∃ queued, result_of (queued_stages a) = Returns queued
       ∧ ∀ stage, stage ∈ queued
           ↔ queued_by_most_recent stage (fget workflow_stages (xml a)))
  ∧ result_of (queued_stages twice_queued)
    = Returns {[ Some {| stage_uri := Some stage_B |} ]}.
Proof.
  split.
  - intros a. rewrite queued_stages_reads. eexists. split; [done|].
    apply foldl_queued_stages_step.
  - rewrite queued_stages_reads. vm_compute. reflexivity.
Qed.

Lemma reagent_label_names_reads (a : Artifact) :
  reagent_label_names a
  = (Returns (fget ReagentLabel.name <$> fget reagent_labels (xml a)), a).
Proof.
  unfold reagent_label_names, bind, descriptor_get.
  by rewrite inherited_reads.
Qed.

(** C7.  Reading [reagent_label_name] raises when the artifact carries more
    than one reagent label, returns [None] when it carries none, and returns
    the name of the label when it carries exactly one; the artifact is left as
    it was in each case. *)
Theorem reagent_label_name_by_count (a : Artifact) :
  ((1 < length (fget reagent_labels (xml a)))%nat →
     reagent_label_name a
     = (Raises "Artifact has multiple reagent labels.", a))
  ∧ (length (fget reagent_labels (xml a)) = 0%nat →
       reagent_label_name a = (Returns None, a))
  ∧ (∀ label, fget reagent_labels (xml a) = [label] →
       reagent_label_name a = (Returns (fget ReagentLabel.name label), a)).
Proof.
  unfold reagent_label_name, bind.
  rewrite reagent_label_names_reads. cbn zeta. rewrite length_fmap.
  split; [|split].
  - intros Hmany. by rewrite bool_decide_eq_true_2.
  - intros Hnone. rewrite Hnone. reflexivity.
  - intros label ->. reflexivity.
Qed.

Lemma reagent_label_name_by_count_witness :
  reagent_label_name (labelled ["Index A"; "Index B"])
  = (Raises "Artifact has multiple reagent labels.",
     labelled ["Index A"; "Index B"])
  ∧ reagent_label_name (labelled []) = (Returns None, labelled [])
  ∧ reagent_label_name (labelled ["Index A"])
    = (Returns (Some "Index A"), labelled ["Index A"]).
Proof.
  split; [|split].
  - apply (reagent_label_name_by_count (labelled ["Index A"; "Index B"])).
    vm_compute. lia.
  - apply (reagent_label_name_by_count (labelled [])). reflexivity.
  - apply (proj2 (proj2 (reagent_label_name_by_count (labelled ["Index A"])))
             (wrap (reagent_label "Index A"))).
    reflexivity.
Defined.

(** C8.  A write through a descriptor declared read-only raises, and the
    document is the one it was before the write. *)
Theorem readonly_write_refused {R W : Type} (d : descriptor R W) (value : W)
    (doc : WrappedXml) :
  readonly d = true →
  ∃ exn, descriptor_set d value doc = (Raises exn, doc).
Proof.
  intros Hro. unfold descriptor_set. rewrite Hro. by eexists.
Qed.

Lemma readonly_write_refused_witness :
  ∃ exn,
    descriptor_set ReagentLabel.name "Index B" (wrap (reagent_label "Index A"))
    = (Raises exn, wrap (reagent_label "Index A")).
Proof.
  apply (readonly_write_refused ReagentLabel.name "Index B"
           (wrap (reagent_label "Index A"))).
  reflexivity.
Defined.

(** With a file link in the document, [file] is the shell of the linked
    file. *)
Example file_of_linked_artifact :
  file with_file
  = (Returns
       (Some {| file_uri := Some "http://localhost/api/v2/files/F1";
                file_name := None; file_xml := None |}), with_file).
Proof. reflexivity. Qed.

(** C9.  [file] never returns [None]: it returns a file, and when the document
    has no file link it returns a new empty file that carries the name of the
    artifact. *)
Theorem file_is_never_none (a : Artifact) :
  (∃ f, file a = (Returns (Some f), a))
  ∧ (find [FILE_TAG] (xml_root (xml a)) = None →
     file a
     = (Returns
          (Some {| file_uri := None; file_name := name a;
                   file_xml := Some (wrap (new_element FILE_TAG)) |}), a)).
Proof.
  unfold file, bind. rewrite inherited_xml_find.
  destruct (find [FILE_TAG] (xml_root (xml a))) as [node|]; cbn.
  - split; [by eexists | done].
  - split; [by eexists | done].
Qed.

Lemma file_is_never_none_witness :
  file bare
  = (Returns
       (Some {| file_uri := None; file_name := Some "plate-1";
                file_xml := Some (wrap (new_element FILE_TAG)) |}), bare).
Proof. apply (file_is_never_none bare). reflexivity. Defined.

Example is_control_of_control : is_control control = (Returns true, control).
Proof. reflexivity. Qed.

Example is_control_of_bare : is_control bare = (Returns false, bare).
Proof. reflexivity. Qed.

(** C10.  [is_control] is [True] exactly when the document has a
    [control-type] subnode, which is exactly when [control_type] resolves a
    link node that exists, and [False] exactly when the subnode is absent;
    reading either property leaves the artifact and its document as they
    were. *)
Theorem is_control_iff_subnode (a : Artifact) :
  let node := find ["control-type"] (xml_root (xml a)) in
  (result_of (is_control a) = Returns true ↔ is_Some node)
  ∧ (result_of (is_control a) = Returns true
     ↔ ∃ n, node = Some n
            ∧ result_of (control_type a)
              = Returns (Some (from_link (attrib n !! "uri"))))
  ∧ (result_of (is_control a) = Returns false ↔ node = None)
  ∧ (result_of (is_control a) = Returns false
     ↔ result_of (control_type a) = Returns None)
  ∧ state_of (is_control a) = a
  ∧ state_of (control_type a) = a.
Proof.
  cbn zeta. unfold is_control, control_type, bind.
  rewrite inherited_xml_find.
  destruct (find ["control-type"] (xml_root (xml a))) as [n|]; cbn.
  - repeat split; try done; eauto.
  - repeat split; try done. by intros (? & ? & _).
Qed.

End artifact_properties.

(** ** Documents: what a write reaches and what it leaves alone *)

Section document_frame.
Import etree wrappedxml.

(** The children with the tag of the step, after the step. *)
Lemma filter_vivify_same (t : string) (g : Element → Element)
    (cs : list Element) :
  (∀ n, tag (g n) = tag n) →
  filter (λ n, tag n = t) (vivify t g cs)
  = match filter (λ n, tag n = t) cs with
    | [] => [g (new_element t)]
    | c :: rest => g c :: rest
    end.
Proof.
  intros Hg. induction cs as [|c cs IH]; simpl.
  - rewrite filter_cons_True; [done|]. by rewrite Hg.
  - destruct (decide (tag c = t)) as [Heq|Hne].
    + rewrite !filter_cons_True; [done..|]. by rewrite Hg.
    + by rewrite !filter_cons_False.
Qed.

(** The children with another tag are the ones there were. *)
Lemma filter_vivify_other (t t' : string) (g : Element → Element)
    (cs : list Element) :
  t ≠ t' → (∀ n, tag (g n) = tag n) →
  filter (λ n, tag n = t') (vivify t g cs) = filter (λ n, tag n = t') cs.
Proof.
  intros Hne Hg. induction cs as [|c cs IH]; simpl.
  - rewrite filter_cons_False; [done|]. rewrite Hg. done.
  - destruct (decide (tag c = t)) as [Heq|Hneq].
    + rewrite !filter_cons_False; [done| |]; rewrite ?Hg; congruence.
    + destruct (decide (tag c = t')).
      * rewrite !filter_cons_True by done. by rewrite IH.
      * by rewrite !filter_cons_False.
Qed.

(** A write along one path is invisible along a path that leaves it at some
    step. *)
Lemma findall_with_subelement_other (r : path) (t1 t2 : string) (p q : path)
    (f : Element → Element) (e : Element) :
  t1 ≠ t2 → (∀ n, tag (f n) = tag n) →
  findall (r ++ t2 :: q) (with_subelement (r ++ t1 :: p) f e)
  = findall (r ++ t2 :: q) e.
Proof.
  intros Hne Hf. revert e. induction r as [|t r IH]; intros e.
  - cbn [app with_subelement findall set_children children].
    rewrite filter_vivify_other; [done..|].
    intros n. by apply tag_with_subelement.
  - cbn [app with_subelement findall set_children children].
    rewrite filter_vivify_same
      by (intros n; by apply tag_with_subelement).
    destruct (filter (λ n, tag n = t) (children e)) as [|c rest];
      cbn [flat_map]; rewrite IH; [|done].
    destruct r; reflexivity.
Qed.

Lemma vivify_ext (t : string) (g g' : Element → Element) (cs : list Element) :
  (∀ n, g n = g' n) → vivify t g cs = vivify t g' cs.
Proof.
  intros Hext. induction cs as [|c cs IH]; simpl; [by rewrite Hext|].
  destruct (decide (tag c = t)); by rewrite ?Hext, ?IH.
Qed.

Lemma with_subelement_ext (p : path) (f f' : Element → Element) (e : Element) :
  (∀ n, f n = f' n) → with_subelement p f e = with_subelement p f' e.
Proof.
  intros Hext. revert e. induction p as [|t p IH]; intros e; simpl; [done|].
  f_equal. apply vivify_ext. intros n. apply IH.
Qed.

Lemma vivify_vivify (t : string) (g g' : Element → Element)
    (cs : list Element) :
  (∀ n, tag (g n) = tag n) →
  vivify t g' (vivify t g cs) = vivify t (λ n, g' (g n)) cs.
Proof.
  intros Hg. induction cs as [|c cs IH]; simpl.
  - rewrite Hg. simpl. by rewrite decide_True.
  - destruct (decide (tag c = t)) as [Heq|Hne]; simpl.
    + by rewrite Hg, decide_True.
    + by rewrite decide_False, IH.
Qed.

(** Two writes at one leaf are one write of the composed change. *)
Lemma with_subelement_twice (p : path) (f f' : Element → Element)
    (e : Element) :
  (∀ n, tag (f n) = tag n) →
  with_subelement p f' (with_subelement p f e)
  = with_subelement p (λ n, f' (f n)) e.
Proof.
  intros Hf. revert e. induction p as [|t p IH]; intros e; [done|].
  cbn [with_subelement set_children children]. unfold set_children.
  cbn [tag attrib text children]. f_equal.
  rewrite vivify_vivify by (intros n; by apply tag_with_subelement).
  apply vivify_ext. intros n. apply IH.
Qed.

End document_frame.

(** ** The artifact: how its operations compose *)

Section artifact_composition.
Import etree wrappedxml links props artifact samples.

Lemma qc_passed_reads (a : Artifact) :
  qc_passed a
  = (Returns (bool_decide (find ["qc-flag"] (xml_root (xml a)) ≫= text
                           = Some QC_PASSED)), a).
Proof. unfold qc_passed, bind. by rewrite inherited_get_node_text. Qed.

Lemma qc_failed_reads (a : Artifact) :
  qc_failed a
  = (Returns (bool_decide (find ["qc-flag"] (xml_root (xml a)) ≫= text
                           = Some QC_FAILED)), a).
Proof. unfold qc_failed, bind. by rewrite inherited_get_node_text. Qed.

(** X1.  [qc], [qc_passed] and [qc_failed] agree on every artifact: [qc] is
    [True] exactly when [qc_passed] holds, [False] exactly when [qc_failed]
    holds, [None] exactly when neither holds, and the two never hold
    together; none of the three changes the artifact. *)
Theorem qc_agrees_with_qc_passed_and_qc_failed (a : Artifact) :
  ∃ (q : option bool) (passed failed : bool),
    qc a = (Returns q, a)
    ∧ qc_passed a = (Returns passed, a)
    ∧ qc_failed a = (Returns failed, a)
    ∧ (q = Some true ↔ passed = true)
    ∧ (q = Some false ↔ failed = true)
    ∧ (q = None ↔ passed = false ∧ failed = false)
    ∧ ¬ (passed = true ∧ failed = true).
Proof.
  rewrite qc_of_text, qc_passed_reads, qc_failed_reads. cbn zeta.
  do 3 eexists. do 3 (split; [reflexivity|]).
  destruct (find ["qc-flag"] (xml_root (xml a)) ≫= text) as [qctext|].
  - destruct (decide (qctext = QC_PASSED)) as [->|Hp].
    + vm_compute. intuition congruence.
    + rewrite (bool_decide_eq_false_2 (Some qctext = Some QC_PASSED))
        by congruence.
      destruct (decide (qctext = QC_FAILED)) as [->|Hf].
      * vm_compute. intuition congruence.
      * rewrite (bool_decide_eq_false_2 (Some qctext = Some QC_FAILED))
          by congruence.
        intuition congruence.
  - vm_compute. intuition congruence.
Qed.

(** X2.  After [set_qc_flag(value)], [qc_passed] holds exactly when the value
    was [True] and [qc_failed] exactly when it was [False]; after
    [set_qc_flag(None)] neither holds. *)
Theorem set_qc_flag_then_qc_passed_qc_failed (value : option bool)
    (a : Artifact) :
  result_of (qc_passed (state_of (set_qc_flag value a)))
  = Returns (bool_decide (value = Some true))
  ∧ result_of (qc_failed (state_of (set_qc_flag value a)))
    = Returns (bool_decide (value = Some false)).
Proof.
  destruct (qc_text_after_set value a) as [_ Htext].
  unfold qc_setter in Htext.
  remember (state_of (set_qc_flag value a)) as a' eqn:Ha'. clear Ha'.
  rewrite inherited_get_node_text in Htext. injection Htext as Htext.
  rewrite qc_passed_reads, qc_failed_reads, Htext.
  by destruct value as [[]|].
Qed.

(** X3.  Setting the flag twice leaves the artifact exactly as setting the
    last value once does: the second write replaces the text of the one
    [qc-flag] subnode and adds no second subnode.  In particular setting the
    same value again changes nothing. *)
Theorem set_qc_flag_last_write_wins (earlier later : option bool)
    (a : Artifact) :
  state_of (set_qc_flag later (state_of (set_qc_flag earlier a)))
  = state_of (set_qc_flag later a).
Proof.
  unfold set_qc_flag, inherited, set_subnode_text, mutate, modify, state_of.
  cbn [fst snd xml xml_root uri name limsid]. do 2 f_equal.
  rewrite with_subelement_twice by done.
  by apply with_subelement_ext.
Qed.

Lemma reagent_label_name_result (a : Artifact) :
  result_of (reagent_label_name a)
  = (let label_names :=
       fget ReagentLabel.name <$> fget reagent_labels (xml a) in
     if bool_decide (1 < length label_names)%nat then
       Raises "Artifact has multiple reagent labels."
     else if bool_decide (length label_names = 0)%nat then Returns None
     else match label_names !! 0%nat with
          | Some label_name => Returns label_name
          | None => Raises "list index out of range"
          end).
Proof.
  unfold reagent_label_name, bind. rewrite reagent_label_names_reads.
  cbn zeta.
  repeat (destruct (bool_decide _); [reflexivity|]).
  by destruct (_ !! _).
Qed.

Lemma file_result (a : Artifact) :
  result_of (file a)
  = Returns
      (match from_link_node (find [FILE_TAG] (xml_root (xml a))) with
       | None => Some (File_set_name (name a) (File_new_empty a))
       | Some f => Some f
       end).
Proof.
  unfold file, bind. rewrite inherited_xml_find.
  by destruct (find [FILE_TAG] (xml_root (xml a))).
Qed.

(** The readers of the artifact look at the root through its children with
    one of four tags, and at the name. *)
Lemma readers_frame (a a' : Artifact) :
  name a' = name a →
  (∀ t, t ∈ ["control-type"; "workflow-stages"; "reagent-label"; FILE_TAG] →
     filter (λ n, tag n = t) (children (xml_root (xml a')))
     = filter (λ n, tag n = t) (children (xml_root (xml a)))) →
  result_of (is_control a') = result_of (is_control a)
  ∧ result_of (control_type a') = result_of (control_type a)
  ∧ result_of (queued_stages a') = result_of (queued_stages a)
  ∧ result_of (reagent_label_names a') = result_of (reagent_label_names a)
  ∧ result_of (reagent_label_name a') = result_of (reagent_label_name a)
  ∧ result_of (file a') = result_of (file a).
Proof.
  intros Hname Hchildren.
  assert (Hfind : ∀ t,
    t ∈ ["control-type"; "workflow-stages"; "reagent-label"; FILE_TAG] →
    find [t] (xml_root (xml a')) = find [t] (xml_root (xml a))).
  { intros t Ht. unfold find. cbn [findall]. by rewrite Hchildren. }
  assert (Hlabels : fget reagent_labels (xml a') = fget reagent_labels (xml a)).
  { unfold reagent_labels, subnode_element_list. cbn.
    rewrite Hchildren; [done|]. set_solver. }
  assert (Hstages :
    fget workflow_stages (xml a') = fget workflow_stages (xml a)).
  { unfold workflow_stages, subnode_element_list. cbn [fget].
    rewrite Hfind; [done|]. set_solver. }
  repeat split.
  - unfold is_control, bind. rewrite !inherited_xml_find.
    rewrite Hfind; [done|]. set_solver.
  - unfold control_type, bind. rewrite !inherited_xml_find.
    rewrite Hfind; [done|]. set_solver.
  - by rewrite !queued_stages_reads, Hstages.
  - by rewrite !reagent_label_names_reads, Hlabels.
  - by rewrite !reagent_label_name_result, Hlabels.
  - rewrite !file_result, Hname. rewrite Hfind; [done|]. set_solver.
Qed.

Lemma set_qc_flag_state (value : option bool) (a : Artifact) :
  state_of (set_qc_flag value a)
  = {| uri := uri a; name := name a; limsid := limsid a;
       xml := {| xml_root :=
                   with_subelement ["qc-flag"]
                     (set_text (Some (qc_marker value))) (xml_root (xml a));
                 dirty := true |} |}.
Proof. by destruct value as [[]|]. Qed.

(** X4.  Setting the qc flag changes nothing that the other readers of the
    artifact see: [is_control], [control_type], [queued_stages],
    [reagent_label_names], [reagent_label_name] and [file] give after
    [set_qc_flag] what they gave before. *)
Theorem set_qc_flag_leaves_other_readers (value : option bool)
    (a : Artifact) :
  result_of (is_control (state_of (set_qc_flag value a)))
  = result_of (is_control a)
  ∧ result_of (control_type (state_of (set_qc_flag value a)))
    = result_of (control_type a)
  ∧ result_of (queued_stages (state_of (set_qc_flag value a)))
    = result_of (queued_stages a)
  ∧ result_of (reagent_label_names (state_of (set_qc_flag value a)))
    = result_of (reagent_label_names a)
  ∧ result_of (reagent_label_name (state_of (set_qc_flag value a)))
    = result_of (reagent_label_name a)
  ∧ result_of (file (state_of (set_qc_flag value a)))
    = result_of (file a).
Proof.
  apply readers_frame; rewrite set_qc_flag_state; [done|].
  intros t Ht. cbn [xml xml_root with_subelement set_children children].
  apply filter_vivify_other; [|done].
  intros <-. revert Ht. rewrite !elem_of_cons, elem_of_nil.
  intros [?|[?|[?|[?|[]]]]]; discriminate.
Qed.

Lemma reagent_labels_after_setter (new_name : string) (a : Artifact) :
  fget reagent_labels (xml (state_of (reagent_label_name_setter new_name a)))
  = wrap <$>
      match filter (λ n, tag n = "reagent-label")
              (children (xml_root (xml a))) with
      | [] => [set_attrib "name" new_name (new_element "reagent-label")]
      | label :: others => set_attrib "name" new_name label :: others
      end.
Proof.
  unfold reagent_label_name_setter, make_subelement_with_parents, mutate,
    modify, inherited, state_of.
  cbn [snd xml xml_root with_subelement set_children children fget
       reagent_labels subnode_element_list find findall head].
  by rewrite filter_vivify_same.
Qed.

(** X5.  The setter of [reagent_label_name] returns normally, writes the name
    of the first reagent label, and creates a label when the artifact has
    none: the label names read afterwards are the new name followed by the
    names of the second and later labels as they were. *)
Theorem reagent_label_name_setter_names (new_name : string) (a : Artifact) :
  ∃ names,
    result_of (reagent_label_names a) = Returns names
    ∧ result_of (reagent_label_name_setter new_name a) = Returns tt
    ∧ result_of (reagent_label_names
                   (state_of (reagent_label_name_setter new_name a)))
      = Returns (Some new_name :: tail names).
Proof.
  rewrite !reagent_label_names_reads, reagent_labels_after_setter.
  eexists. split; [reflexivity|]. split.
  { unfold reagent_label_name_setter. by rewrite inherited_result. }
  unfold result_of. cbn [fst]. f_equal.
  unfold reagent_labels at 1, subnode_element_list. cbn [fget find findall head].
  destruct (filter _ (children (xml_root (xml a)))) as [|label others]; cbn.
  - by rewrite lookup_insert_eq.
  - by rewrite lookup_insert_eq.
Qed.

(** X6.  On an artifact with at most one reagent label, reading
    [reagent_label_name] after setting it returns the name that was set; on an
    artifact with several labels reading still raises after the setter. *)
Theorem reagent_label_name_set_then_get (new_name : string) (a : Artifact) :
  ((length (fget reagent_labels (xml a)) ≤ 1)%nat →
     result_of (reagent_label_name
                  (state_of (reagent_label_name_setter new_name a)))
     = Returns (Some new_name))
  ∧ ((1 < length (fget reagent_labels (xml a)))%nat →
       result_of (reagent_label_name
                    (state_of (reagent_label_name_setter new_name a)))
       = Raises "Artifact has multiple reagent labels.").
Proof.
  rewrite reagent_label_name_result, reagent_labels_after_setter.
  unfold reagent_labels, subnode_element_list.
  cbn [fget find findall head].
  destruct (filter _ (children (xml_root (xml a)))) as [|label [|second others]].
  - split; [intros _|cbn; lia]. cbn. by rewrite lookup_insert_eq.
  - split; [intros _|cbn; lia]. cbn. by rewrite lookup_insert_eq.
  - split; [cbn; lia|intros _]. reflexivity.
Qed.

Lemma reagent_label_name_set_then_get_witness :
  result_of (reagent_label_name
               (state_of (reagent_label_name_setter "Index C" (labelled []))))
  = Returns (Some "Index C")
  ∧ result_of (reagent_label_name
                 (state_of (reagent_label_name_setter "Index C"
                              (labelled ["Index A"; "Index B"]))))
    = Raises "Artifact has multiple reagent labels.".
Proof.
  split.
  - apply (reagent_label_name_set_then_get "Index C" (labelled [])).
    vm_compute. lia.
  - apply (reagent_label_name_set_then_get "Index C"
             (labelled ["Index A"; "Index B"])).
    vm_compute. lia.
Defined.

(** The stage of a history entry is never [None]: it is the stage that the
    entry's own [uri] attribute names. *)
Lemma history_stage_is_its_uri (stage_history : WrappedXml) :
  fget WorkflowStageHistory.stage stage_history
  = Some {| stage_uri := fget WorkflowStageHistory.uri stage_history |}.
Proof. reflexivity. Qed.

(** X7.  Every member of [queued_stages] is a stage (never [None]) that some
    workflow-stage entry of the artifact with status QUEUED names by its
    [uri] attribute; an artifact without such an entry has no queued
    stage. *)
Theorem queued_stages_have_a_queued_entry (a : Artifact) :
  ∃ queued,
    result_of (queued_stages a) = Returns queued
    ∧ ∀ stage, stage ∈ queued →
        ∃ stage_history,
          stage_history ∈ fget workflow_stages (xml a)
          ∧ fget WorkflowStageHistory.status stage_history
            = Some STAGE_STATUS_QUEUED
          ∧ stage
            = Some {| stage_uri :=
                        fget WorkflowStageHistory.uri stage_history |}.
Proof.
  rewrite queued_stages_reads. eexists. split; [reflexivity|].
  intros stage (h & Hlast & Hstatus)%foldl_queued_stages_step.
  exists h. unfold most_recent_relevant in Hlast.
  apply last_Some_elem_of, list_elem_of_filter in Hlast
    as [[Hstage _] Hin].
  by rewrite <- Hstage.
Qed.

Lemma queued_stages_step_other_status (queued : gset (option Stage))
    (stage_history : WrappedXml) :
  relevant_status (fget WorkflowStageHistory.status stage_history) = false →
  queued_stages_step queued stage_history = queued.
Proof.
  unfold relevant_status, queued_stages_step. cbn zeta.
  destruct (bool_decide (_ = Some STAGE_STATUS_QUEUED)); [done|].
  destruct (bool_decide (_ = Some STAGE_STATUS_REMOVED)); [done|].
  by destruct (bool_decide (_ = Some STAGE_STATUS_IN_PROGRESS)).
Qed.

(** X8.  A history entry whose status is none of QUEUED, REMOVED and
    IN_PROGRESS (COMPLETE, say, or no status at all) has no effect: an
    artifact whose history has such an entry somewhere has the queued stages
    of an artifact whose history is the same without that entry.  So a stage
    that was queued and then completed stays in the set. *)
Theorem queued_stages_ignores_other_statuses (a b : Artifact)
    (before after : list WrappedXml) (stage_history : WrappedXml) :
  relevant_status (fget WorkflowStageHistory.status stage_history) = false →
  fget workflow_stages (xml a) = before ++ stage_history :: after →
  fget workflow_stages (xml b) = before ++ after →
  result_of (queued_stages a) = result_of (queued_stages b).
Proof.
  intros Hother Ha Hb. rewrite !queued_stages_reads, Ha, Hb.
  unfold result_of. cbn [fst]. f_equal.
  rewrite !foldl_app. cbn [foldl].
  by rewrite queued_stages_step_other_status.
Qed.

Lemma queued_stages_ignores_other_statuses_witness :
  result_of (queued_stages with_complete)
  = result_of (queued_stages twice_queued).
Proof.
  apply (queued_stages_ignores_other_statuses with_complete twice_queued
           [wrap (history stage_A STAGE_STATUS_QUEUED)]
           [wrap (history stage_B STAGE_STATUS_QUEUED);
            wrap (history stage_A STAGE_STATUS_IN_PROGRESS)]
           (wrap (history stage_A "COMPLETE"))); reflexivity.
Defined.

Lemma subnode_property_round_trip (p : path) (value : string)
    (w : WrappedXml) :
  result_of (descriptor_set (subnode_property p false) value w) = Returns tt
  ∧ fget (subnode_property p false)
      (state_of (descriptor_set (subnode_property p false) value w))
    = Some value.
Proof.
  split; [reflexivity|].
  pose proof (get_node_text_set_subnode_text p (Some value) w) as Hget.
  unfold get_node_text, xml_find, bind, reads, ret, result_of in Hget.
  cbn [fst] in Hget. by injection Hget.
Qed.

(** X9.  Each of the three writable text fields of the artifact, [type],
    [output_type] and [location_value], reads back what was written to it;
    the write returns normally and creates the subnodes that are missing
    ([location] and [value] for the last). *)
Theorem writable_fields_round_trip (value : string) (a : Artifact)
    (field : descriptor (option string) string) :
  field = type ∨ field = output_type ∨ field = location_value →
  result_of (inherited (descriptor_set field value) a) = Returns tt
  ∧ result_of (inherited (descriptor_get field)
                 (state_of (inherited (descriptor_set field value) a)))
    = Returns (Some value).
Proof.
  intros Hfield.
  assert (∃ p, field = subnode_property p false) as [p ->].
  { destruct Hfield as [-> | [-> | ->]]; by eexists. }
  destruct (subnode_property_round_trip p value (xml a)) as [Hset Hget].
  split; [by rewrite inherited_result|].
  unfold descriptor_get at 1. rewrite inherited_reads.
  unfold result_of. cbn [fst]. f_equal.
  by rewrite inherited_state.
Qed.

Lemma writable_fields_round_trip_witness :
  result_of (inherited (descriptor_set location_value "A:1") bare)
  = Returns tt
  ∧ result_of (inherited (descriptor_get location_value)
                 (state_of (inherited (descriptor_set location_value "A:1")
                              bare)))
    = Returns (Some "A:1").
Proof.
  apply (writable_fields_round_trip "A:1" bare location_value). by right; right.
Defined.

Lemma location_value_state (value : string) (a : Artifact) :
  xml_root (xml (state_of (inherited (descriptor_set location_value value) a)))
  = with_subelement ["location"; "value"] (set_text (Some value))
      (xml_root (xml a)).
Proof. by rewrite inherited_state. Qed.

(** X10.  Writing [location_value] changes neither [type] nor [output_type]
    nor the container the artifact is in nor its qc flag: each reads after
    the write as it did before. *)
Theorem location_value_write_leaves_other_fields (value : string)
    (a : Artifact) :
  fget type (xml (state_of (inherited (descriptor_set location_value value) a)))
  = fget type (xml a)
  ∧ fget output_type
      (xml (state_of (inherited (descriptor_set location_value value) a)))
    = fget output_type (xml a)
  ∧ result_of
      (container (state_of (inherited (descriptor_set location_value value) a)))
    = result_of (container a)
  ∧ result_of
      (qc (state_of (inherited (descriptor_set location_value value) a)))
    = result_of (qc a).
Proof.
  pose proof (location_value_state value a) as Hroot.
  remember (state_of (inherited (descriptor_set location_value value) a))
    as a' eqn:Ha'. clear Ha'.
  assert (Hother : ∀ t q, "location" ≠ t →
    find (t :: q) (xml_root (xml a')) = find (t :: q) (xml_root (xml a))).
  { intros t q Ht. unfold find. rewrite Hroot.
    by rewrite (findall_with_subelement_other [] "location" t ["value"] q). }
  assert (Hcontainer :
    find ["location"; "container"] (xml_root (xml a'))
    = find ["location"; "container"] (xml_root (xml a))).
  { unfold find. rewrite Hroot.
    by rewrite (findall_with_subelement_other ["location"] "value"
                  "container" [] []). }
  repeat split.
  - unfold type, subnode_property. cbn [fget]. by rewrite Hother.
  - unfold output_type, subnode_property. cbn [fget]. by rewrite Hother.
  - unfold container, bind. rewrite !inherited_xml_find. by rewrite Hcontainer.
  - rewrite !qc_of_text. cbn zeta. by rewrite Hother.
Qed.

Lemma file_reads (a : Artifact) :
  ∃ f, file a = (Returns (Some f), a)
       ∧ file_uri f
         = find [FILE_TAG] (xml_root (xml a)) ≫= (λ n, attrib n !! "uri")
       ∧ (find [FILE_TAG] (xml_root (xml a)) = None → file_name f = name a).
Proof.
  unfold file, bind. rewrite inherited_xml_find.
  destruct (find [FILE_TAG] (xml_root (xml a))) as [node|]; cbn;
    by eexists.
Qed.

(** Opened with [r+], the file of a bare artifact is new, named after the
    artifact, not writeable, and neither truncated nor moved. *)
Example open_file_r_plus :
  result_of (open_file "r+" false None bare)
  = Returns
      {| file_opened :=
           {| file_uri := None; file_name := Some "plate-1";
              file_xml := Some (wrap (new_element FILE_TAG)) |};
         f_only_write_locally := false; f_mode := "r+";
         f_writeable := Some false; f_called := None |}.
Proof. reflexivity. Qed.


(** X12.  The file that [open_file] returns has the given name when a name is
    given, also when the artifact already links to a file; without a name, a
    file made for an artifact that links to none has the name of the
    artifact.  Its uri is the uri of the file link, if there is one. *)
Theorem open_file_name (mode : string) (only_write_locally : bool)
    (new_name : option string) (a : Artifact) :
  ∃ opened,
    result_of (open_file mode only_write_locally new_name a) = Returns opened
    ∧ (∀ given, new_name = Some given →
         file_name (file_opened opened) = Some given)
    ∧ (new_name = None → find [FILE_TAG] (xml_root (xml a)) = None →
         file_name (file_opened opened) = name a)
    ∧ file_uri (file_opened opened)
      = find [FILE_TAG] (xml_root (xml a)) ≫= (λ n, attrib n !! "uri").
Proof.
  destruct (file_reads a) as (f & Hfile & Huri & Hname).
  unfold open_file, bind. rewrite Hfile.
  destruct (contains_char "w" mode), (contains_char "r" mode),
    (contains_char "a" mode);
    eexists; (split; [reflexivity|]); cbn;
    (destruct new_name as [given|]; cbn;
     (split; [intros ? [= <-] || intros ? [=]; done|]);
     (split; [by intros; auto|]); done).
Qed.

End artifact_composition.
